(** * conference_map_clean.py: a shallow embedding of the topic-map pipeline

    The script is one function, [main], which loads [titles.txt], hands the
    documents to a sentence encoder, a UMAP reducer and a BERTopic model, and
    then renders and saves three figures inside one [try]/[except Exception].

    The embedding follows the script line by line.  Text handling (the
    loader) and parameter arithmetic are modelled exactly.  The library
    objects (SentenceTransformer, UMAP, BERTopic, the figures) are not part
    of the script: they appear as the operations of a record [externals],
    each returning either a value or a raised exception, and every theorem
    about [main] is quantified over that record. *)

From Stdlib Require Import List String Ascii ZArith QArith Bool Lia Sorted.
Import ListNotations.

Local Open Scope string_scope.
Local Open Scope list_scope.

(* ================================================================== *)
(** * The loader (line 36)

    [docs = [item.rstrip("\n") for item in open("titles.txt").readlines()
             if item != "\n"]] *)
(* ================================================================== *)

(** The two line-ending characters. *)
Definition LF : ascii := ascii_of_nat 10.
Definition CR : ascii := ascii_of_nat 13.

(** The one-character string that [readlines] yields for an empty line. *)
Definition NL : string := String LF EmptyString.

(** [open(path)] opens the file in text mode with [newline=None]: Python's
    universal-newlines mode.  On reading, every line ending, be it LF, CR
    or the pair CR LF, reaches the program as the single character LF.
    The argument is the decoded content of the file. *)
Fixpoint universal_newlines (s : string) : string :=
  match s with
  | EmptyString => EmptyString
  | String c rest =>
      if Ascii.eqb c CR then
        match rest with
        | String c' rest' =>
            if Ascii.eqb c' LF
            then String LF (universal_newlines rest')
            else String LF (universal_newlines rest)
        | EmptyString => String LF EmptyString
        end
      else String c (universal_newlines rest)
  end.

(** [f.readlines()]: the text cut after every LF, each piece keeping its
    LF; a last piece without LF is kept when it is not empty. *)
Fixpoint readlines (s : string) : list string :=
  match s with
  | EmptyString => []
  | String c rest =>
      if Ascii.eqb c LF then String c EmptyString :: readlines rest
      else match readlines rest with
           | [] => [String c EmptyString]
           | l :: ls => String c l :: ls
           end
  end.

(** [item.rstrip("\n")]: every trailing LF is removed, nothing else. *)
Fixpoint rstrip_newline (s : string) : string :=
  match s with
  | EmptyString => EmptyString
  | String c rest =>
      match rstrip_newline rest with
      | EmptyString => if Ascii.eqb c LF then EmptyString else String c EmptyString
      | r => String c r
      end
  end.

(** The guard of the comprehension: [item != "\n"]. *)
Definition not_blank (item : string) : bool := negb (String.eqb item NL).

(** The comprehension over the lines already read. *)
Definition docs_of_lines (lines : list string) : list string :=
  map rstrip_newline (filter not_blank lines).

(** Line 36 on the decoded content of [titles.txt]. *)
Definition load_docs (content : string) : list string :=
  docs_of_lines (readlines (universal_newlines content)).

(** ** The specification's reading of the same step

    "One document per line ... blank lines are skipped": the lines of a
    text are the segments between newlines, and the documents are the
    segments that are not empty. *)

(** [split_newline acc s]: the segments of [s] between LF characters,
    [acc] holding (reversed) the characters of the segment being read. *)
Fixpoint split_newline (acc : list ascii) (s : string) : list string :=
  match s with
  | EmptyString => [string_of_list_ascii (rev acc)]
  | String c rest =>
      if Ascii.eqb c LF
      then string_of_list_ascii (rev acc) :: split_newline [] rest
      else split_newline (c :: acc) rest
  end.

Definition nonempty (s : string) : bool :=
  match s with EmptyString => false | String _ _ => true end.

(** The non-blank lines of a text, in order. *)
Definition nonblank_lines (text : string) : list string :=
  filter nonempty (split_newline [] text).

(** [lacks c s]: the character [c] does not occur in [s]. *)
Fixpoint lacks (c : ascii) (s : string) : bool :=
  match s with
  | EmptyString => true
  | String c' rest => negb (Ascii.eqb c' c) && lacks c rest
  end.

(** No character of [s] is a line ending. *)
Definition no_line_end (s : string) : bool := lacks LF s && lacks CR s.

(** What [readlines] can yield: a newline-free body followed by one LF, or,
    for an unterminated last line, a non-empty newline-free body. *)
Definition line_shape (item : string) : Prop :=
  exists body, lacks LF body = true
    /\ (item = (body ++ NL)%string \/ (item = body /\ body <> ""%string)).

(** A file with CR LF line endings, an empty line, a line of two blanks,
    a lone CR and an unterminated last line. *)
Definition crlf_file : string :=
  ("abc" ++ String CR NL ++ String CR NL ++ "  " ++ String CR NL
         ++ "x" ++ String CR ("y" ++ NL) ++ "last")%string.

(* ================================================================== *)
(** * Parameters derived from the corpus size (lines 48 and 65) *)
(* ================================================================== *)

(** [len(docs)]: a Python integer. *)
Definition len {A : Type} (l : list A) : Z := Z.of_nat (List.length l).

(** Line 48: [n_neighbors = min(15, len(docs) - 1)]. *)
Definition n_neighbors_for (docs : list string) : Z := Z.min 15 (len docs - 1).

(** Line 65: [max(2, len(docs) // 20)]. *)
Definition min_cluster_size_for (docs : list string) : Z := Z.max 2 (len docs / 20).

(** Keyword arguments of [UMAP(...)], lines 49-57. *)
Record UMAP_args : Type := mkUMAP {
  n_neighbors : Z;
  n_components : Z;
  min_dist : Q;
  umap_metric : string;
  random_state : Z;
  low_memory : bool;
  n_jobs : Z
}.

(** Keyword arguments of [HDBSCAN(...)], lines 64-70. *)
Record HDBSCAN_args : Type := mkHDBSCAN {
  min_cluster_size : Z;
  min_samples : Z;
  hdbscan_metric : string;
  cluster_selection_method : string;
  core_dist_n_jobs : Z
}.

(** Keyword arguments of [CountVectorizer(...)], line 72. *)
Record CountVectorizer_args : Type := mkCountVectorizer {
  stop_words : string;
  min_df : Z;
  max_df : Q
}.

Definition umap_args_for (docs : list string) : UMAP_args :=
  {| n_neighbors := n_neighbors_for docs;
     n_components := 2;
     min_dist := 0%Q;
     umap_metric := "cosine";
     random_state := 42;
     low_memory := true;
     n_jobs := 1 |}.

Definition hdbscan_args_for (docs : list string) : HDBSCAN_args :=
  {| min_cluster_size := min_cluster_size_for docs;
     min_samples := 1;
     hdbscan_metric := "euclidean";
     cluster_selection_method := "eom";
     core_dist_n_jobs := 1 |}.

Definition vectorizer_args : CountVectorizer_args :=
  {| stop_words := "english"; min_df := 1; max_df := (95 # 100)%Q |}.

(** Lines 7-11: the thread-count variables set before any library loads. *)
Definition thread_environment : list (string * string) :=
  [("OMP_NUM_THREADS", "1"); ("OPENBLAS_NUM_THREADS", "1");
   ("MKL_NUM_THREADS", "1"); ("VECLIB_MAXIMUM_THREADS", "1");
   ("NUMEXPR_NUM_THREADS", "1")].

(* ================================================================== *)
(** * Exceptions, results and the trace of a run *)
(* ================================================================== *)

(** [except Exception] catches the subclasses of [Exception]; the other
    subclasses of [BaseException] ([KeyboardInterrupt], [SystemExit]) pass
    through it. *)
Inductive exn_class : Type := IsException | NotException.

Record exn : Type := mkExn { exn_cls : exn_class; exn_message : string }.

Inductive result (A : Type) : Type :=
| Ok (a : A)
| Raise (e : exn).
Arguments Ok {A} a.
Arguments Raise {A} e.

(** ** Constants and small helpers of the script *)

Definition FILE_NAME : string := "titles".

(** U+2713 and U+26A0 as the UTF-8 bytes of the source file. *)
Definition CHECK_MARK : string :=
  String (ascii_of_nat 226) (String (ascii_of_nat 156) (String (ascii_of_nat 147) "")).
Definition WARNING_SIGN : string :=
  String (ascii_of_nat 226) (String (ascii_of_nat 154) (String (ascii_of_nat 160) "")).

(** [s * n] on strings, as in ["-" * 10]. *)
Fixpoint str_mul (s : string) (n : nat) : string :=
  match n with
  | O => ""
  | S n' => s ++ str_mul s n'
  end.

(** Line 88, [np.unique(topics, return_counts=True)] zipped into a dict:
    the distinct labels in increasing order, each with its number of
    occurrences. *)
Fixpoint count_label (k : Z) (d : list (Z * nat)) : list (Z * nat) :=
  match d with
  | [] => [(k, 1%nat)]
  | (k', n) :: d' =>
      if (k <? k')%Z then (k, 1%nat) :: (k', n) :: d'
      else if (k =? k')%Z then (k', S n) :: d'
      else (k', n) :: count_label k d'
  end.

Definition unique_counts (labels : list Z) : list (Z * nat) :=
  fold_right count_label [] labels.

Definition FileNotFoundError (path : string) : exn :=
  mkExn IsException ("[Errno 2] No such file or directory: '" ++ path ++ "'").

(** The library objects the script only passes around. *)
Record Objects : Type := mkObjects {
  Encoder : Type;      (* a loaded SentenceTransformer *)
  Vec : Type;          (* one row of [embeddings] *)
  Point : Type;        (* one row of [reduced_embeddings] *)
  Fitted : Type;       (* the fitted state of the UMAP object *)
  Model : Type;        (* the fitted BERTopic object *)
  Probs : Type;        (* second component of [fit_transform]'s result *)
  Figure : Type;       (* a plotly figure *)
  Hierarchy : Type;    (* the table returned by [hierarchical_topics] *)
  MplFigure : Type;    (* a matplotlib figure *)
  TopicInfo : Type     (* the table returned by [get_topic_info] *)
}.

Section Pipeline.

Variable T : Objects.

(** The UMAP object: its arguments and, once [fit_transform] has run on
    it (line 58), its fitted state.  The same object is then given to
    [BERTopic(umap_model=...)] (line 76). *)
Record umap_object : Type := mkUmapObject {
  umap_args : UMAP_args;
  umap_fitted : option (Fitted T)
}.

(** Keyword arguments of [BERTopic(...)], lines 75-81. *)
Record BERTopic_args : Type := mkBERTopic {
  umap_model : umap_object;
  hdbscan_model : HDBSCAN_args;
  vectorizer_model : CountVectorizer_args;
  verbose : bool;
  calculate_probabilities : bool
}.

(** The library calls of the script.  Each returns or raises. *)
Record externals : Type := mkExternals {
  SentenceTransformer : string -> result (Encoder T);
  (* [encode(docs, show_progress_bar=True)]; the flag only drives a progress bar *)
  encode : Encoder T -> list string -> result (list (Vec T));
  umap_fit_transform :
    UMAP_args -> list (Vec T) -> result (Fitted T * list (Point T));
  bertopic_fit_transform :
    BERTopic_args -> list string -> list (Vec T) ->
    result (Model T * (list Z * Probs T));
  visualize_documents :
    Model T -> list string -> list (Point T) -> result (Figure T);
  hierarchical_topics : Model T -> list string -> result (Hierarchy T);
  visualize_hierarchy : Model T -> Hierarchy T -> result (Figure T);
  visualize_document_datamap :
    Model T -> list string -> list (Point T) -> result (MplFigure T);
  write_html : Figure T -> string -> result unit;
  savefig : MplFigure T -> string -> Z -> string -> result unit;
  get_topic_info : Model T -> result (TopicInfo T)
}.

(** A call as it appears in the trace, with its arguments. *)
Inductive call : Type :=
| COpen (path : string)
| CSentenceTransformer (name : string)
| CEncode (docs : list string)
| CUmapFitTransform (u : UMAP_args) (embeddings : list (Vec T))
| CBertopicFitTransform (b : BERTopic_args) (docs : list string)
    (embeddings : list (Vec T))
| CVisualizeDocuments (m : Model T) (docs : list string)
    (reduced_embeddings : list (Point T))
| CHierarchicalTopics (m : Model T) (docs : list string)
| CVisualizeHierarchy (m : Model T) (h : Hierarchy T)
| CVisualizeDocumentDatamap (m : Model T) (docs : list string)
    (reduced_embeddings : list (Point T))
| CWriteHtml (fig : Figure T) (path : string)
| CSavefig (fig : MplFigure T) (path : string) (dpi : Z) (bbox_inches : string)
| CGetTopicInfo (m : Model T).

(** The pieces of a printed f-string. *)
Inductive fragment : Type :=
| Lit (s : string)
| Str (s : string)                (* an interpolated [str] *)
| Int (n : Z)
| Dict (d : list (Z * nat))
| TypeOfFigure (f : Figure T)
| TypeOfMplFigure (f : MplFigure T)
| ExnStr (e : exn)                 (* [{e}] *)
| FormatExc (e : exn)              (* [{traceback.format_exc()}] *)
| Table (info : TopicInfo T).      (* [{topic_model.get_topic_info()}] *)

(** What a run does, in order: a printed line, or a library call together
    with the exception it raised, if it raised. *)
Inductive event : Type :=
| EPrint (line : list fragment)
| ECall (c : call) (raised : option exn).

(** A computation: its outcome and the events it performed.  Events that
    happened before an exception stay in the trace. *)
Definition M (A : Type) : Type := (result A * list event)%type.

Definition ret {A : Type} (a : A) : M A := (Ok a, []).

Definition bind {A B : Type} (m : M A) (k : A -> M B) : M B :=
  match m with
  | (Ok a, t) => let (r, t') := k a in (r, t ++ t')
  | (Raise e, t) => (Raise e, t)
  end.

Definition print (line : list fragment) : M unit := (Ok tt, [EPrint line]).

Definition raised_by {A : Type} (r : result A) : option exn :=
  match r with Ok _ => None | Raise e => Some e end.

(** A library call [c] whose outcome is [r]. *)
Definition invoke {A : Type} (c : call) (r : result A) : M A :=
  (r, [ECall c (raised_by r)]).

(** [try: body / except Exception as e: handler e]. *)
Definition try_except_Exception {A : Type} (body : M A) (handler : exn -> M A)
  : M A :=
  match body with
  | (Ok a, t) => (Ok a, t)
  | (Raise e, t) =>
      match exn_cls e with
      | IsException => let (r, t') := handler e in (r, t ++ t')
      | NotException => (Raise e, t)
      end
  end.

(** ** The script *)

Notation "x <- m ;; k" := (bind m (fun x => k))
  (at level 61, m at next level, right associativity).
Notation "' pat <- m ;; k" := (bind m (fun x => match x with pat => k end))
  (at level 61, pat pattern, m at next level, right associativity).
Notation "m ;; k" := (bind m (fun _ => k))
  (at level 61, right associativity).

(** [open(path).readlines()] starts by opening the file: on a file system
    [fs] (path to decoded content) a missing file raises. *)
Definition open_ (fs : string -> option string) (path : string)
  : result string :=
  match fs path with
  | Some content => Ok content
  | None => Raise (FileNotFoundError path)
  end.

(** The variables of [main] that are live after line 85. *)
Record fit_state : Type := mkFitState {
  docs : list string;
  embeddings : list (Vec T);
  reduced_embeddings : list (Point T);
  topic_model : Model T;
  topics : list Z;
  probs : Probs T
}.

Variable X : externals.
Variable fs : string -> option string.

(** Lines 33-85: load, embed, reduce, fit.  The constructors [UMAP(...)],
    [HDBSCAN(...)], [CountVectorizer(...)] and [BERTopic(...)] only store
    their arguments: they appear as records, not as calls. *)
Definition fit_stage : M fit_state :=
  content <- invoke (COpen (FILE_NAME ++ ".txt"))
                    (open_ fs (FILE_NAME ++ ".txt")) ;;
  let docs := docs_of_lines (readlines (universal_newlines content)) in
  print [Lit "Loaded "; Int (len docs); Lit " documents"] ;;
  print [Lit (NL ++ "Creating embeddings...")] ;;
  sentence_model <- invoke (CSentenceTransformer "all-MiniLM-L6-v2")
                           (SentenceTransformer X "all-MiniLM-L6-v2") ;;
  embeddings <- invoke (CEncode docs) (encode X sentence_model docs) ;;
  print [Lit "Reducing dimensions with UMAP..."] ;;
  let umap := umap_args_for docs in
  ' (fitted, reduced_embeddings) <-
      invoke (CUmapFitTransform umap embeddings)
             (umap_fit_transform X umap embeddings) ;;
  let umap_model := {| umap_args := umap; umap_fitted := Some fitted |} in
  print [Lit "Training BERTopic model..."] ;;
  let bertopic :=
    {| umap_model := umap_model;
       hdbscan_model := hdbscan_args_for docs;
       vectorizer_model := vectorizer_args;
       verbose := true;
       calculate_probabilities := false |} in
  print [Lit "Fitting topic model..."] ;;
  ' (topic_model, (topics, probs)) <-
      invoke (CBertopicFitTransform bertopic docs embeddings)
             (bertopic_fit_transform X bertopic docs embeddings) ;;
  ret {| docs := docs;
         embeddings := embeddings;
         reduced_embeddings := reduced_embeddings;
         topic_model := topic_model;
         topics := topics;
         probs := probs |}.

(** Lines 87-91. *)
Definition report_topics (st : fit_state) : M unit :=
  print [Lit (NL ++ "Found "); Int (len (nodup Z.eq_dec (topics st)));
         Lit " topics"] ;;
  print [Lit "Topic distribution: "; Dict (unique_counts (topics st))] ;;
  print [Lit (NL ++ "Creating visualizations...")].

(** Lines 94-133: the body of the [try]. *)
Definition render_and_save (st : fit_state) : M unit :=
  print [Lit "Creating document visualization..."] ;;
  figure_doc <-
    invoke (CVisualizeDocuments (topic_model st) (docs st) (reduced_embeddings st))
           (visualize_documents X (topic_model st) (docs st) (reduced_embeddings st)) ;;
  print [Lit "Creating hierarchical clustering..."] ;;
  hierarchical <-
    invoke (CHierarchicalTopics (topic_model st) (docs st))
           (hierarchical_topics X (topic_model st) (docs st)) ;;
  fig_hierarchical_clustering <-
    invoke (CVisualizeHierarchy (topic_model st) hierarchical)
           (visualize_hierarchy X (topic_model st) hierarchical) ;;
  print [Lit "Creating document datamap..."] ;;
  figure_datamap <-
    invoke (CVisualizeDocumentDatamap (topic_model st) (docs st) (reduced_embeddings st))
           (visualize_document_datamap X (topic_model st) (docs st) (reduced_embeddings st)) ;;
  print [Lit (NL ++ "Visualization types:")] ;;
  print [Lit "figure_doc: "; TypeOfFigure figure_doc] ;;
  print [Lit (str_mul "-" 10)] ;;
  print [Lit "fig_hierarchical_clustering: ";
         TypeOfFigure fig_hierarchical_clustering] ;;
  print [Lit (str_mul "-" 10)] ;;
  print [Lit "figure_datamap: "; TypeOfMplFigure figure_datamap] ;;
  print [Lit "Saving visualizations to HTML files..."] ;;
  invoke (CWriteHtml figure_doc (FILE_NAME ++ "_document.html"))
         (write_html X figure_doc (FILE_NAME ++ "_document.html")) ;;
  print [Lit (CHECK_MARK ++ " Saved "); Str FILE_NAME; Lit "_document.html"] ;;
  invoke (CWriteHtml fig_hierarchical_clustering (FILE_NAME ++ "_hierarchical.html"))
         (write_html X fig_hierarchical_clustering (FILE_NAME ++ "_hierarchical.html")) ;;
  print [Lit (CHECK_MARK ++ " Saved "); Str FILE_NAME; Lit "_hierarchical.html"] ;;
  invoke (CSavefig figure_datamap (FILE_NAME ++ "_datamap.png") 150 "tight")
         (savefig X figure_datamap (FILE_NAME ++ "_datamap.png") 150 "tight") ;;
  print [Lit (CHECK_MARK ++ " Saved "); Str FILE_NAME; Lit "_datamap.png"] ;;
  print [Lit (NL ++ CHECK_MARK ++ " Successfully created all visualizations!")] ;;
  print [Lit (NL ++ "View the following files in your browser:")] ;;
  print [Lit "  - "; Str FILE_NAME;
         Lit "_document.html (interactive document scatter plot)"] ;;
  print [Lit "  - "; Str FILE_NAME;
         Lit "_hierarchical.html (hierarchical clustering dendrogram)"] ;;
  print [Lit "  - "; Str FILE_NAME; Lit "_datamap.png (topic datamap)"].

(** Lines 135-140: the handler. *)
Definition on_exception (st : fit_state) (e : exn) : M unit :=
  print [Lit (NL ++ WARNING_SIGN ++ " Error during visualization: "); ExnStr e] ;;
  print [Lit ("Traceback:" ++ NL); FormatExc e] ;;
  print [Lit "The model was trained successfully, but visualization failed."] ;;
  info <- invoke (CGetTopicInfo (topic_model st))
                 (get_topic_info X (topic_model st)) ;;
  print [Lit (NL ++ "Topics found:" ++ NL); Table info].

(** Line 141. *)
Definition closing_line : M unit :=
  print [Lit "Open the file in your browser to view the interactive visualizations."].

(** Lines 87-141, from the state the fit left. *)
Definition visualization_stage (st : fit_state) : M unit :=
  report_topics st ;;
  try_except_Exception (render_and_save st) (on_exception st) ;;
  closing_line.

Definition main : M unit :=
  st <- fit_stage ;;
  visualization_stage st.

End Pipeline.

Arguments mkUmapObject {T} _ _.
Arguments umap_args {T} _.
Arguments umap_fitted {T} _.
Arguments umap_model {T} _.
Arguments hdbscan_model {T} _.
Arguments vectorizer_model {T} _.
Arguments SentenceTransformer {T} _ _.
Arguments encode {T} _ _ _.
Arguments umap_fit_transform {T} _ _ _.
Arguments bertopic_fit_transform {T} _ _ _ _.
Arguments visualize_documents {T} _ _ _ _.
Arguments hierarchical_topics {T} _ _ _.
Arguments visualize_hierarchy {T} _ _ _.
Arguments visualize_document_datamap {T} _ _ _ _.
Arguments write_html {T} _ _ _.
Arguments savefig {T} _ _ _ _ _.
Arguments get_topic_info {T} _ _.
Arguments COpen {T} _.
Arguments CSentenceTransformer {T} _.
Arguments CEncode {T} _.
Arguments CUmapFitTransform {T} _ _.
Arguments CBertopicFitTransform {T} _ _ _.
Arguments CVisualizeDocuments {T} _ _ _.
Arguments CHierarchicalTopics {T} _ _.
Arguments CVisualizeHierarchy {T} _ _.
Arguments CVisualizeDocumentDatamap {T} _ _ _.
Arguments CWriteHtml {T} _ _.
Arguments CSavefig {T} _ _ _ _.
Arguments CGetTopicInfo {T} _.
Arguments Lit {T} _.
Arguments Str {T} _.
Arguments Int {T} _.
Arguments Dict {T} _.
Arguments TypeOfFigure {T} _.
Arguments TypeOfMplFigure {T} _.
Arguments ExnStr {T} _.
Arguments FormatExc {T} _.
Arguments Table {T} _.
Arguments EPrint {T} _.
Arguments ECall {T} _ _.
Arguments ret {T A} _.
Arguments bind {T A B} _ _.
Arguments print {T} _.
Arguments invoke {T A} _ _.
Arguments try_except_Exception {T A} _ _.
Arguments docs {T} _.
Arguments embeddings {T} _.
Arguments reduced_embeddings {T} _.
Arguments topic_model {T} _.
Arguments topics {T} _.
Arguments probs {T} _.
Arguments fit_stage {T} _ _.
Arguments report_topics {T} _.
Arguments render_and_save {T} _ _.
Arguments on_exception {T} _ _ _.
Arguments closing_line {T}.
Arguments visualization_stage {T} _ _.
Arguments main {T} _ _.

(** ** Reading a trace *)

(** The four model calls and three save calls of the [try] body. *)
Definition is_render_or_write {T : Objects} (ev : event T) : bool :=
  match ev with
  | ECall (CVisualizeDocuments _ _ _) _ => true
  | ECall (CHierarchicalTopics _ _) _ => true
  | ECall (CVisualizeHierarchy _ _) _ => true
  | ECall (CVisualizeDocumentDatamap _ _ _) _ => true
  | ECall (CWriteHtml _ _) _ => true
  | ECall (CSavefig _ _ _ _) _ => true
  | _ => false
  end.

(** The save calls that returned, in order: the files the run wrote. *)
Fixpoint completed_writes {T : Objects} (t : list (event T)) : list (call T) :=
  match t with
  | [] => []
  | ECall (CWriteHtml fig path) None :: t' =>
      CWriteHtml fig path :: completed_writes t'
  | ECall (CSavefig fig path dpi bbox) None :: t' =>
      CSavefig fig path dpi bbox :: completed_writes t'
  | _ :: t' => completed_writes t'
  end.

Definition written_path {T : Objects} (c : call T) : list string :=
  match c with
  | CWriteHtml _ path => [path]
  | CSavefig _ path _ _ => [path]
  | _ => []
  end.

Definition files_written {T : Objects} (t : list (event T)) : list string :=
  flat_map written_path (completed_writes t).

(** After the first call that raised, the trace holds no render call and
    no save call. *)
Fixpoint quiet_after_raise {T : Objects} (t : list (event T)) : bool :=
  match t with
  | [] => true
  | ECall _ (Some _) :: post =>
      forallb (fun ev => negb (is_render_or_write ev)) post
  | _ :: post => quiet_after_raise post
  end.

(** Some printed line holds the topic table. *)
Definition table_printed {T : Objects} (t : list (event T)) : bool :=
  existsb (fun ev =>
             match ev with
             | EPrint line =>
                 existsb (fun f => match f with Table _ => true | _ => false end) line
             | ECall _ _ => false
             end) t.

(** No call of the trace raised. *)
Definition no_exception {T : Objects} (t : list (event T)) : bool :=
  forallb (fun ev => match ev with ECall _ (Some _) => false | _ => true end) t.

(** The lines printed, in order. *)
Fixpoint console {T : Objects} (t : list (event T)) : list (list (fragment T)) :=
  match t with
  | [] => []
  | EPrint line :: t' => line :: console t'
  | ECall _ _ :: t' => console t'
  end.

(** The process ends with status 0 exactly when [main] returns. *)
Definition exits_normally {T : Objects} (run : M T unit) : bool :=
  match fst run with Ok _ => true | Raise _ => false end.

(** The table of per-document rows that the renderers rely on. *)
Definition rows {T : Objects} (st : fit_state T)
  : list (string * (Vec T * (Point T * Z))) :=
  combine (docs st)
          (combine (embeddings st) (combine (reduced_embeddings st) (topics st))).

(** ** A small concrete instance of the libraries

    Used to run the script on concrete inputs: vectors are document
    lengths, every document gets topic 0, figures are names.  [faults]
    selects which calls raise. *)

Definition toy_objects : Objects :=
  {| Encoder := string; Vec := nat; Point := (nat * nat)%type;
     Fitted := UMAP_args; Model := list Z; Probs := unit;
     Figure := string; Hierarchy := nat; MplFigure := string;
     TopicInfo := list (Z * nat) |}.

Record faults : Type := mkFaults {
  render_fault : option exn;            (* raised by [visualize_documents] *)
  write_fault : string -> option exn;   (* raised when saving to a path *)
  info_fault : option exn               (* raised by [get_topic_info] *)
}.

Definition or_raise {A : Type} (fault : option exn) (a : A) : result A :=
  match fault with Some e => Raise e | None => Ok a end.

Definition toy (f : faults) : externals toy_objects :=
  {| SentenceTransformer := fun name => Ok name : result (Encoder toy_objects);
     encode := fun _ docs => Ok (map String.length docs) : result (list (Vec toy_objects));
     umap_fit_transform := fun u embs =>
       Ok (u, map (fun v => (v, v)) embs)
       : result (Fitted toy_objects * list (Point toy_objects));
     bertopic_fit_transform := fun _ docs _ =>
       Ok (map (fun _ => 0%Z) docs, (map (fun _ => 0%Z) docs, tt))
       : result (Model toy_objects * (list Z * Probs toy_objects));
     visualize_documents := fun _ _ _ =>
       or_raise (render_fault f) "scatter" : result (Figure toy_objects);
     hierarchical_topics := fun m _ =>
       Ok (List.length m) : result (Hierarchy toy_objects);
     visualize_hierarchy := fun _ _ => Ok "dendrogram" : result (Figure toy_objects);
     visualize_document_datamap := fun _ _ _ =>
       Ok "datamap" : result (MplFigure toy_objects);
     write_html := fun _ path => or_raise (write_fault f path) tt;
     savefig := fun _ path _ _ => or_raise (write_fault f path) tt;
     get_topic_info := fun m =>
       or_raise (info_fault f) (unique_counts m) : result (TopicInfo toy_objects) |}.

Definition no_faults : faults :=
  {| render_fault := None; write_fault := fun _ => None; info_fault := None |}.

(** A file system holding only [titles.txt]. *)
Definition only_titles (content : string) (path : string) : option string :=
  if String.eqb path "titles.txt" then Some content else None.

Definition two_titles : string :=
  ("graph neural networks" ++ NL ++ NL ++ "topic models" ++ NL)%string.

Definition one_title : string := ("topic models" ++ NL)%string.

(** The state the toy libraries leave after fitting [two_titles]. *)
Definition two_titles_state : fit_state toy_objects :=
  mkFitState toy_objects
    ["graph neural networks"; "topic models"]%string
    [21; 12]%nat [(21, 21); (12, 12)]%nat [0; 0]%Z [0; 0]%Z tt.

Definition boom : exn := mkExn IsException "boom".
Definition table_lost : exn := mkExn IsException "topic table unavailable".
Definition interrupted : exn := mkExn NotException "KeyboardInterrupt".

(* ================================================================== *)
(** * Facts about the loader *)
(* ================================================================== *)

(** ** Further vocabulary for the loader and the trace *)

(** Every character of [s] satisfies [p]. *)
Fixpoint made_of (p : ascii -> bool) (s : string) : bool :=
  match s with
  | EmptyString => true
  | String c rest => p c && made_of p rest
  end.

(** The text holds nothing but line endings. *)
Definition only_line_ends (s : string) : bool :=
  made_of (fun c => Ascii.eqb c LF || Ascii.eqb c CR) s.

(** A file holding the given documents, one per line. *)
Fixpoint join_lines (ds : list string) : string :=
  match ds with
  | [] => EmptyString
  | d :: ds' => (d ++ NL ++ join_lines ds')%string
  end.

(** The count recorded for label [k] in a distribution, 0 when absent. *)
Fixpoint count_in (d : list (Z * nat)) (k : Z) : nat :=
  match d with
  | [] => O
  | (k', n) :: d' => if (k =? k')%Z then n else count_in d' k
  end.

(** Which library function a call is to. *)
Inductive call_kind : Type :=
| KOpen | KSentenceTransformer | KEncode | KUmapFitTransform
| KBertopicFitTransform | KVisualizeDocuments | KHierarchicalTopics
| KVisualizeHierarchy | KVisualizeDocumentDatamap | KWriteHtml | KSavefig
| KGetTopicInfo.

Definition kind_of {T : Objects} (c : call T) : call_kind :=
  match c with
  | COpen _ => KOpen
  | CSentenceTransformer _ => KSentenceTransformer
  | CEncode _ => KEncode
  | CUmapFitTransform _ _ => KUmapFitTransform
  | CBertopicFitTransform _ _ _ => KBertopicFitTransform
  | CVisualizeDocuments _ _ _ => KVisualizeDocuments
  | CHierarchicalTopics _ _ => KHierarchicalTopics
  | CVisualizeHierarchy _ _ => KVisualizeHierarchy
  | CVisualizeDocumentDatamap _ _ _ => KVisualizeDocumentDatamap
  | CWriteHtml _ _ => KWriteHtml
  | CSavefig _ _ _ _ => KSavefig
  | CGetTopicInfo _ => KGetTopicInfo
  end.

(** The library functions called in a trace, in order. *)
Fixpoint calls_of {T : Objects} (t : list (event T)) : list call_kind :=
  match t with
  | [] => []
  | ECall c _ :: t' => kind_of c :: calls_of t'
  | EPrint _ :: t' => calls_of t'
  end.

(** The calls of [main] in the order of the source text, lines 36-126. *)
Definition script_order : list call_kind :=
  [KOpen; KSentenceTransformer; KEncode; KUmapFitTransform;
   KBertopicFitTransform; KVisualizeDocuments; KHierarchicalTopics;
   KVisualizeHierarchy; KVisualizeDocumentDatamap; KWriteHtml; KWriteHtml;
   KSavefig].

(** The three output names of lines 118-126, in order. *)
Definition output_names : list string :=
  [(FILE_NAME ++ "_document.html")%string;
   (FILE_NAME ++ "_hierarchical.html")%string;
   (FILE_NAME ++ "_datamap.png")%string].

(** The line printed after a save to [FILE_NAME ++ suffix] returned. *)
Definition saved_line {T : Objects} (suffix : string) : event T :=
  EPrint [Lit (CHECK_MARK ++ " Saved "); Str FILE_NAME; Lit suffix].

(** Line 129. *)
Definition success_line {T : Objects} : event T :=
  EPrint [Lit (NL ++ CHECK_MARK ++ " Successfully created all visualizations!")].

(** Line 141. *)
Definition closing_event {T : Objects} : event T :=
  EPrint [Lit "Open the file in your browser to view the interactive visualizations."].

(** A file system without [titles.txt]. *)
Definition no_files (path : string) : option string := None.

(** ** Sample files *)

Example readlines_crlf_file :
  readlines (universal_newlines crlf_file)
  = ["abc" ++ NL; NL; "  " ++ NL; "x" ++ NL; "y" ++ NL; "last"]%string.
Proof. reflexivity. Qed.

Example load_docs_crlf_file :
  load_docs crlf_file = ["abc"; "  "; "x"; "y"; "last"]%string.
Proof. reflexivity. Qed.

Example nonblank_lines_crlf_file :
  nonblank_lines (universal_newlines crlf_file)
  = ["abc"; "  "; "x"; "y"; "last"]%string.
Proof. reflexivity. Qed.

Example rstrip_newline_only_trailing :
  rstrip_newline ("a" ++ NL ++ NL)%string = "a"%string
  /\ rstrip_newline (NL ++ "a ")%string = (NL ++ "a ")%string.
Proof. split; reflexivity. Qed.

Section LoaderFacts.

Local Open Scope string_scope.

Lemma append_empty_r (s : string) : (s ++ "")%string = s.
Proof. induction s as [|c s IH]; simpl; [reflexivity | now rewrite IH]. Qed.

Lemma string_of_list_ascii_snoc (l : list ascii) (c : ascii) :
  string_of_list_ascii (l ++ [c])%list
  = (string_of_list_ascii l ++ String c "")%string.
Proof. induction l as [|a l IH]; simpl; [reflexivity | now rewrite IH]. Qed.

Lemma append_assoc (a b c : string) :
  ((a ++ b) ++ c)%string = (a ++ (b ++ c))%string.
Proof. induction a as [|x a IH]; simpl; [reflexivity | now rewrite IH]. Qed.

(** Stripping leaves a leading non-newline character in place. *)
Lemma rstrip_newline_cons (c : ascii) (s : string) :
  Ascii.eqb c LF = false ->
  rstrip_newline (String c s) = String c (rstrip_newline s).
Proof.
  intros Hc. simpl. rewrite Hc. now destruct (rstrip_newline s).
Qed.

(** A newline-free body survives stripping, with or without its newline. *)
Lemma rstrip_newline_body (body : string) :
  lacks LF body = true ->
  rstrip_newline (body ++ NL) = body /\ rstrip_newline body = body.
Proof.
  induction body as [|c b IH]; intros H.
  - split; reflexivity.
  - simpl in H. apply andb_true_iff in H as [Hc Hb].
    apply negb_true_iff in Hc. destruct (IH Hb) as [IH1 IH2].
    split.
    + change (String c b ++ NL) with (String c (b ++ NL)).
      rewrite rstrip_newline_cons by exact Hc. now rewrite IH1.
    + rewrite rstrip_newline_cons by exact Hc. now rewrite IH2.
Qed.

Lemma lacks_rstrip_newline (x : ascii) (s : string) :
  lacks x s = true -> lacks x (rstrip_newline s) = true.
Proof.
  induction s as [|c s IH]; intros H; [reflexivity|].
  simpl in H. apply andb_true_iff in H as [Hc Hs]. specialize (IH Hs).
  simpl. destruct (rstrip_newline s) as [|c' r] eqn:E.
  - destruct (Ascii.eqb c LF); simpl; [reflexivity | now rewrite Hc].
  - simpl. simpl in IH. now rewrite Hc, IH.
Qed.

(** The accumulator of [split_newline] is a prefix of the first segment. *)
Lemma split_newline_acc (s : string) :
  forall acc, exists x xs,
    split_newline [] s = x :: xs
    /\ split_newline acc s = (string_of_list_ascii (rev acc) ++ x)%string :: xs.
Proof.
  induction s as [|c rest IH]; intros acc.
  - exists "", []. simpl. now rewrite append_empty_r.
  - simpl. destruct (Ascii.eqb c LF) eqn:Hc.
    + exists "", (split_newline [] rest). now rewrite append_empty_r.
    + destruct (IH [c]) as (x & xs & H0 & H1).
      destruct (IH (c :: acc)) as (x' & xs' & H0' & H1').
      rewrite H0 in H0'. injection H0' as <- <-.
      exists (String c x), xs. split.
      * rewrite H1. reflexivity.
      * rewrite H1'. simpl rev. rewrite string_of_list_ascii_snoc.
        now rewrite append_assoc.
Qed.

Lemma readlines_shape (s : string) : Forall line_shape (readlines s).
Proof.
  induction s as [|c rest IH]; simpl; [constructor|].
  destruct (Ascii.eqb c LF) eqn:Hc.
  - constructor; [|exact IH].
    apply Ascii.eqb_eq in Hc. subst c.
    exists "". split; [reflexivity | left; reflexivity].
  - destruct (readlines rest) as [|l ls]; constructor.
    + exists (String c ""). split.
      * simpl. now rewrite Hc.
      * right. split; [reflexivity | discriminate].
    + constructor.
    + inversion IH as [|? ? (b & Hb & Hl) _]; subst.
      exists (String c b). split.
      * simpl. now rewrite Hc, Hb.
      * destruct Hl as [-> | [-> Hne]]; [left; reflexivity | right].
        split; [reflexivity | discriminate].
    + now inversion IH.
Qed.

Lemma lacks_not_newline (body : string) :
  lacks LF body = true -> body <> "" -> String.eqb body NL = false.
Proof.
  intros Hb Hne. apply String.eqb_neq. intros ->.
  simpl in Hb. discriminate.
Qed.

Lemma body_newline_blank (body : string) :
  String.eqb (body ++ NL) NL = negb (nonempty body).
Proof.
  destruct body as [|c b]; [reflexivity|].
  change (negb (nonempty (String c b))) with false.
  apply String.eqb_neq. unfold NL. simpl. intros H.
  injection H as _ H. destruct b; discriminate.
Qed.

(** On a line of [readlines], the guard [item != "\n"] holds exactly when
    the stripped line is not empty. *)
Lemma shape_guard (item : string) :
  line_shape item -> nonempty (rstrip_newline item) = not_blank item.
Proof.
  intros (b & Hb & H). destruct (rstrip_newline_body b Hb) as [R1 R2].
  unfold not_blank. destruct H as [-> | [-> Hne]].
  - rewrite R1, body_newline_blank. now rewrite negb_involutive.
  - rewrite R2, (lacks_not_newline b Hb Hne). now destruct b.
Qed.

Lemma filter_nonempty_stripped (items : list string) :
  Forall line_shape items ->
  filter nonempty (map rstrip_newline items) = docs_of_lines items.
Proof.
  unfold docs_of_lines.
  induction 1 as [|item items Hi _ IH]; [reflexivity|].
  simpl. rewrite (shape_guard item Hi), IH.
  now destruct (not_blank item).
Qed.

(** The segments between newlines are the stripped lines of [readlines],
    plus one empty segment when the text is empty or ends with a newline. *)
Lemma split_newline_readlines (s : string) :
  exists tail,
    (tail = [] \/ tail = [""])
    /\ split_newline [] s = (map rstrip_newline (readlines s) ++ tail)%list
    /\ (readlines s = [] -> tail = [""]).
Proof.
  induction s as [|c rest (tail & Ht & IH & Hnil)].
  - exists [""]. auto.
  - simpl. destruct (Ascii.eqb c LF) eqn:Hc.
    + exists tail. split; [exact Ht|]. split; [|discriminate].
      apply Ascii.eqb_eq in Hc. subst c. simpl. now rewrite IH.
    + destruct (split_newline_acc rest [c]) as (x & xs & H0 & H1).
      rewrite H1. simpl. rewrite IH in H0.
      destruct (readlines rest) as [|l ls].
      * rewrite (Hnil eq_refl) in H0. injection H0 as <- <-.
        exists []. split; [now left|]. split; [|discriminate].
        simpl. now rewrite Hc.
      * simpl in H0. injection H0 as <- <-.
        exists tail. split; [exact Ht|]. split; [|discriminate].
        change (map rstrip_newline (String c l :: ls))
          with (rstrip_newline (String c l) :: map rstrip_newline ls).
        now rewrite rstrip_newline_cons by exact Hc.
Qed.

Lemma docs_of_lines_app (l1 l2 : list string) :
  docs_of_lines (l1 ++ l2) = (docs_of_lines l1 ++ docs_of_lines l2)%list.
Proof. unfold docs_of_lines. now rewrite filter_app, map_app. Qed.

Lemma docs_of_lines_count (lines : list string) :
  (List.length (docs_of_lines lines) + count_occ string_dec lines NL
   = List.length lines)%nat.
Proof.
  unfold docs_of_lines. induction lines as [|item lines IH]; [reflexivity|].
  simpl. unfold not_blank at 1.
  destruct (string_dec item NL) as [->|Hne].
  - rewrite String.eqb_refl. simpl. lia.
  - apply String.eqb_neq in Hne. rewrite Hne. simpl. lia.
Qed.

(** Text-mode reading leaves no carriage return in the text. *)
Lemma universal_newlines_lacks_CR (s : string) :
  lacks CR (universal_newlines s) = true
  /\ forall c, lacks CR (universal_newlines (String c s)) = true.
Proof.
  induction s as [|c' rest [IH1 IH2]].
  - split; [reflexivity|]. intros c. simpl.
    destruct (Ascii.eqb c CR) eqn:Hc; simpl; [reflexivity | now rewrite Hc].
  - split; [apply IH2|]. intros c.
    change (universal_newlines (String c (String c' rest)))
      with (if Ascii.eqb c CR
            then if Ascii.eqb c' LF
                 then String LF (universal_newlines rest)
                 else String LF (universal_newlines (String c' rest))
            else String c (universal_newlines (String c' rest))).
    destruct (Ascii.eqb c CR) eqn:Hc.
    + destruct (Ascii.eqb c' LF); simpl lacks; [exact IH1 | apply IH2].
    + change (lacks CR (String c (universal_newlines (String c' rest))))
        with (negb (Ascii.eqb c CR)
              && lacks CR (universal_newlines (String c' rest))).
      now rewrite Hc, IH2.
Qed.

Lemma readlines_lacks (x : ascii) (s : string) :
  lacks x s = true -> Forall (fun item => lacks x item = true) (readlines s).
Proof.
  induction s as [|c rest IH]; intros H; simpl; [constructor|].
  simpl in H. apply andb_true_iff in H as [Hc Hs]. specialize (IH Hs).
  destruct (Ascii.eqb c LF).
  - constructor; [simpl; now rewrite Hc | exact IH].
  - destruct (readlines rest) as [|l ls]; constructor.
    + simpl. now rewrite Hc.
    + constructor.
    + inversion IH; subst. simpl. now rewrite Hc.
    + now inversion IH.
Qed.

(** A text without carriage returns is read unchanged. *)
Lemma universal_newlines_id (s : string) :
  lacks CR s = true -> universal_newlines s = s.
Proof.
  induction s as [|c rest IH]; intros H; [reflexivity|].
  simpl in H. apply andb_true_iff in H as [Hc Hs].
  apply negb_true_iff in Hc. simpl. rewrite Hc. now rewrite IH.
Qed.

(** A CR LF pair after a body without carriage returns is read as LF. *)
Lemma universal_newlines_crlf (body : string) :
  lacks CR body = true ->
  universal_newlines (body ++ String CR NL) = (body ++ NL)%string.
Proof.
  induction body as [|c rest IH]; intros H; [reflexivity|].
  simpl in H. apply andb_true_iff in H as [Hc Hs].
  apply negb_true_iff in Hc.
  change (String c rest ++ String CR NL) with (String c (rest ++ String CR NL)).
  simpl universal_newlines at 1. rewrite Hc. now rewrite IH.
Qed.

(** One terminated line yields one item. *)
Lemma readlines_one_line (body : string) :
  lacks LF body = true -> readlines (body ++ NL) = [(body ++ NL)%string].
Proof.
  induction body as [|c rest IH]; intros H; [reflexivity|].
  simpl in H. apply andb_true_iff in H as [Hc Hs].
  apply negb_true_iff in Hc. simpl. rewrite Hc. now rewrite IH.
Qed.

End LoaderFacts.

(** C5.  For every input file, the loaded documents are exactly the
    non-blank lines of the text (as text-mode reading delivers it), in file
    order and without their newline; they are the lines of [readlines]
    other than "\n", each stripped; so the number of documents is the number
    of non-blank lines, and the lines skipped are those equal to "\n". *)
Theorem load_docs_nonblank_lines (content : string) :
  let text := universal_newlines content in
  load_docs content = nonblank_lines text
  /\ load_docs content
     = map rstrip_newline
         (filter (fun item => negb (String.eqb item NL)) (readlines text))
  /\ List.length (load_docs content) = List.length (nonblank_lines text)
  /\ (List.length (load_docs content) + count_occ string_dec (readlines text) NL
      = List.length (readlines text))%nat.
Proof.
  intros text.
  assert (E : load_docs content = nonblank_lines text).
  { unfold load_docs, nonblank_lines. fold text.
    destruct (split_newline_readlines text) as (tail & Ht & Hs & _).
    rewrite Hs, filter_app, (filter_nonempty_stripped _ (readlines_shape text)).
    destruct Ht as [-> | ->]; simpl; now rewrite app_nil_r. }
  split; [exact E|]. split; [reflexivity|]. split; [now rewrite E|].
  apply docs_of_lines_count.
Qed.

(** C10, the claim as stated fails: read in text mode, the file "abc\r\n"
    loads as the document "abc", not "abc\r". *)
Lemma crlf_carriage_return_not_kept :
  load_docs ("abc" ++ String CR NL) = ["abc"%string]
  /\ load_docs ("abc" ++ String CR NL) <> [("abc" ++ String CR "")%string].
Proof. split; [reflexivity | vm_compute; discriminate]. Qed.

(** C10, amended.  The comprehension drops a line exactly when it is "\n"
    and keeps every other line with only its trailing newline removed, so a
    line of blanks such as "  \n" is kept as "  ".  Text-mode reading turns
    CR LF into LF before the lines are cut: no loaded document contains a
    carriage return or a newline, and "body\r\n" loads as "body". *)
Theorem loader_discards_only_newline_lines
  (item body : string)
  (Hitem : item <> NL)
  (Hbody : body <> ""%string)
  (Hend : no_line_end body = true) :
  (forall l1 l2,
      docs_of_lines (l1 ++ NL :: l2) = docs_of_lines l1 ++ docs_of_lines l2)
  /\ (forall l1 l2,
         docs_of_lines (l1 ++ item :: l2)
         = docs_of_lines l1 ++ rstrip_newline item :: docs_of_lines l2)
  /\ rstrip_newline (body ++ NL) = body
  /\ load_docs (body ++ NL) = [body]
  /\ load_docs (body ++ String CR NL) = [body]
  /\ (forall content,
         Forall (fun d => no_line_end d = true) (load_docs content)).
Proof.
  unfold no_line_end in Hend. apply andb_true_iff in Hend as [Hlf Hcr].
  assert (Hone : docs_of_lines [(body ++ NL)%string] = [body]).
  { assert (Hnb : not_blank (body ++ NL) = true).
    { unfold not_blank. rewrite body_newline_blank.
      destruct body; [congruence | reflexivity]. }
    unfold docs_of_lines. cbn [filter]. rewrite Hnb. cbn [map].
    now rewrite (proj1 (rstrip_newline_body _ Hlf)). }
  split; [|split; [|split; [|split; [|split]]]].
  - intros l1 l2. now rewrite docs_of_lines_app.
  - intros l1 l2. rewrite docs_of_lines_app. f_equal.
    unfold docs_of_lines. simpl. unfold not_blank at 1.
    apply String.eqb_neq in Hitem. now rewrite Hitem.
  - apply (rstrip_newline_body _ Hlf).
  - unfold load_docs. rewrite universal_newlines_id.
    + now rewrite (readlines_one_line _ Hlf).
    + clear -Hcr. induction body as [|c b IH]; [reflexivity|].
      simpl in *. apply andb_true_iff in Hcr as [Hc Hb].
      now rewrite Hc, IH.
  - unfold load_docs. rewrite (universal_newlines_crlf _ Hcr).
    now rewrite (readlines_one_line _ Hlf).
  - intros content. unfold load_docs, docs_of_lines.
    set (text := universal_newlines content).
    assert (Hcrs := readlines_lacks CR text (proj1 (universal_newlines_lacks_CR content))).
    assert (Hsh := readlines_shape text).
    induction (readlines text) as [|l ls IH]; [constructor|].
    inversion Hcrs as [|? ? Hl Hls]; subst.
    inversion Hsh as [|? ? Hs Hss]; subst.
    simpl. destruct (not_blank l); [|now apply IH].
    simpl. constructor; [|now apply IH].
    unfold no_line_end. rewrite (lacks_rstrip_newline CR l Hl), andb_true_r.
    destruct Hs as (b & Hb & [-> | [-> _]]).
    + now rewrite (proj1 (rstrip_newline_body b Hb)).
    + now rewrite (proj2 (rstrip_newline_body b Hb)).
Qed.

(** The amended C10 at the line of two blanks and at the line "a b\n". *)
Lemma loader_discards_only_newline_lines_witness :
  docs_of_lines ([NL] ++ ("a b" ++ NL)%string :: [NL])
  = [] ++ "a b"%string :: []
  /\ load_docs ("  " ++ NL) = ["  "%string]
  /\ load_docs ("  " ++ String CR NL) = ["  "%string].
Proof.
  destruct (loader_discards_only_newline_lines ("a b" ++ NL) "  ")
    as (_ & Hkeep & _ & Hlf & Hcrlf & _).
  - vm_compute. discriminate.
  - discriminate.
  - reflexivity.
  - split; [exact (Hkeep [NL] [NL]) | split; [exact Hlf | exact Hcrlf]].
Defined.

(* ================================================================== *)
(** * Facts about the derived parameters *)
(* ================================================================== *)

Lemma n_neighbors_for_bounds (docs : list string) :
  (n_neighbors_for docs <= 15 /\ n_neighbors_for docs <= len docs - 1)%Z.
Proof. unfold n_neighbors_for. lia. Qed.

Lemma min_cluster_size_at_least_2 (docs : list string) :
  (2 <= min_cluster_size (hdbscan_args_for docs))%Z.
Proof. simpl. unfold min_cluster_size_for. lia. Qed.

Example min_cluster_size_ten_docs :
  min_cluster_size_for (repeat "t"%string 10) = 2%Z
  /\ min_cluster_size_for (repeat "t"%string 60) = 3%Z.
Proof. split; reflexivity. Qed.

(* ================================================================== *)
(** * Facts about the run *)
(* ================================================================== *)

(** Unfold the script down to the outcomes of its library calls. *)
Ltac reduce_run :=
  cbv beta iota zeta delta
    [main visualization_stage fit_stage report_topics render_and_save
     on_exception closing_line try_except_Exception bind invoke print ret
     open_ raised_by app fst snd].

Ltac reduce_run_in H :=
  cbv beta iota zeta delta
    [main visualization_stage fit_stage report_topics render_and_save
     on_exception closing_line try_except_Exception bind invoke print ret
     open_ raised_by app fst snd] in H.

(** Case analysis on the outcome of the next library call of the run
    described by hypothesis [H]. *)
Ltac next_call_in H :=
  match type of H with
  | context [match ?fs ?p with Some _ => _ | None => _ end] =>
      destruct (fs p) eqn:?
  | context [SentenceTransformer ?X ?a] =>
      destruct (SentenceTransformer X a) eqn:?
  | context [encode ?X ?a ?b] => destruct (encode X a b) eqn:?
  | context [umap_fit_transform ?X ?a ?b] =>
      destruct (umap_fit_transform X a b) as [[? ?] | ?] eqn:?
  | context [bertopic_fit_transform ?X ?a ?b ?c] =>
      destruct (bertopic_fit_transform X a b c) as [[? [? ?]] | ?] eqn:?
  | context [visualize_documents ?X ?a ?b ?c] =>
      destruct (visualize_documents X a b c) eqn:?
  | context [hierarchical_topics ?X ?a ?b] =>
      destruct (hierarchical_topics X a b) eqn:?
  | context [visualize_hierarchy ?X ?a ?b] =>
      destruct (visualize_hierarchy X a b) eqn:?
  | context [visualize_document_datamap ?X ?a ?b ?c] =>
      destruct (visualize_document_datamap X a b c) eqn:?
  | context [write_html ?X ?a ?b] => destruct (write_html X a b) eqn:?
  | context [savefig ?X ?a ?b ?c ?d] => destruct (savefig X a b c d) eqn:?
  | context [get_topic_info ?X ?a] => destruct (get_topic_info X a) eqn:?
  | context [match exn_cls ?e with IsException => _ | NotException => _ end] =>
      destruct (exn_cls e) eqn:?
  end.

Ltac run_script_in H :=
  reduce_run_in H; repeat (next_call_in H; reduce_run_in H).

(** Replay a run whose call outcomes are recorded as hypotheses. *)
Ltac replay :=
  reduce_run;
  repeat (match goal with
          | E : ?l = _ |- context [?l] => rewrite E
          end; reduce_run).

Section RunFacts.

Context {T : Objects}.
Variable X : externals T.
Variable fs : string -> option string.

(** The BERTopic arguments built on lines 75-81 from the fitted UMAP. *)
Lemma fit_stage_ok (st : fit_state T) (t : list (event T)) :
  fit_stage X fs = (Ok st, t) ->
  exists content sentence_model fitted pr,
    let u := mkUmapObject (umap_args_for (docs st)) (Some fitted) in
    let b := mkBERTopic T u (hdbscan_args_for (docs st)) vectorizer_args true false in
    fs "titles.txt"%string = Some content
    /\ docs st = load_docs content
    /\ SentenceTransformer X "all-MiniLM-L6-v2" = Ok sentence_model
    /\ encode X sentence_model (docs st) = Ok (embeddings st)
    /\ umap_fit_transform X (umap_args_for (docs st)) (embeddings st)
       = Ok (fitted, reduced_embeddings st)
    /\ bertopic_fit_transform X b (docs st) (embeddings st)
       = Ok (topic_model st, (topics st, pr))
    /\ t = [ECall (COpen "titles.txt") None;
            EPrint [Lit "Loaded "; Int (len (docs st)); Lit " documents"];
            EPrint [Lit (NL ++ "Creating embeddings...")];
            ECall (CSentenceTransformer "all-MiniLM-L6-v2") None;
            ECall (CEncode (docs st)) None;
            EPrint [Lit "Reducing dimensions with UMAP..."];
            ECall (CUmapFitTransform (umap_args_for (docs st)) (embeddings st)) None;
            EPrint [Lit "Training BERTopic model..."];
            EPrint [Lit "Fitting topic model..."];
            ECall (CBertopicFitTransform b (docs st) (embeddings st)) None].
Proof.
  intros H. run_script_in H; try discriminate.
  injection H as <- <-. cbn [docs embeddings reduced_embeddings topic_model topics].
  eexists _, _, _, _. repeat split; eassumption || reflexivity.
Qed.

(** C1.  Assume each library keeps one output row per input row: [encode]
    returns one vector per document, [fit_transform] of UMAP one point per
    vector, [fit_transform] of BERTopic one topic per document.  Then, in
    every run that completes the fit (line 85), documents, embeddings,
    reduced coordinates and topics have the same length, and every index of
    a document is an index of each other sequence: row [i] of the table
    that zips them holds document [i], embedding [i], point [i] and
    topic [i].  Each stage was handed the whole sequence of the stage
    before it: the loaded documents went to [encode] and to the topic
    model, the embeddings to the reducer and to the topic model. *)
Theorem sequences_aligned
  (Hencode : forall m ds es,
      encode X m ds = Ok es -> List.length es = List.length ds)
  (Humap : forall u es f ps,
      umap_fit_transform X u es = Ok (f, ps) -> List.length ps = List.length es)
  (Hfit : forall b ds es m ts pr,
      bertopic_fit_transform X b ds es = Ok (m, (ts, pr)) ->
      List.length ts = List.length ds)
  (st : fit_state T) (t : list (event T))
  (Hrun : fit_stage X fs = (Ok st, t)) :
  List.length (embeddings st) = List.length (docs st)
  /\ List.length (reduced_embeddings st) = List.length (docs st)
  /\ List.length (topics st) = List.length (docs st)
  /\ List.length (rows st) = List.length (docs st)
  /\ (forall i d,
        nth_error (docs st) i = Some d ->
        exists e p k,
          nth_error (embeddings st) i = Some e
          /\ nth_error (reduced_embeddings st) i = Some p
          /\ nth_error (topics st) i = Some k
          /\ nth_error (rows st) i = Some (d, (e, (p, k))))
  /\ In (ECall (CEncode (docs st)) None) t
  /\ In (ECall (CUmapFitTransform (umap_args_for (docs st)) (embeddings st)) None) t
  /\ exists b, In (ECall (CBertopicFitTransform b (docs st) (embeddings st)) None) t.
Proof.
  destruct (fit_stage_ok st t Hrun)
    as (content & sm & fitted & pr & _ & _ & _ & He & Hu & Hb & Ht).
  pose proof (Hencode _ _ _ He) as Le.
  pose proof (Humap _ _ _ _ Hu) as Lp.
  pose proof (Hfit _ _ _ _ _ _ Hb) as Lt.
  assert (Lr : List.length (rows st) = List.length (docs st)).
  { unfold rows. rewrite !length_combine. lia. }
  split; [lia|]. split; [lia|]. split; [lia|]. split; [lia|].
  split;
    [|rewrite Ht; split; [|split; [|eexists]];
      cbn [In]; repeat first [left; reflexivity | right]].
  intros i d Hd.
  assert (Hi : (i < List.length (docs st))%nat)
    by (apply nth_error_Some; congruence).
  destruct (nth_error (embeddings st) i) as [e|] eqn:Ee;
    [|apply nth_error_None in Ee; lia].
  destruct (nth_error (reduced_embeddings st) i) as [p|] eqn:Ep;
    [|apply nth_error_None in Ep; lia].
  destruct (nth_error (topics st) i) as [k|] eqn:Ek;
    [|apply nth_error_None in Ek; lia].
  exists e, p, k. repeat split.
  unfold rows.
  assert (Hcomb : forall (A B : Type) (la : list A) (lb : list B) n a b,
             nth_error la n = Some a -> nth_error lb n = Some b ->
             nth_error (combine la lb) n = Some (a, b)).
  { intros A B la. induction la as [|x la IH]; intros lb n a b Ha Hb'.
    - destruct n; discriminate.
    - destruct lb as [|y lb]; [destruct n; discriminate|].
      destruct n as [|n]; simpl in *; [congruence | now apply IH]. }
  auto.
Qed.

(** C6.  Whenever a run reaches the reducer, the neighborhood size it is
    given is [min(15, n - 1)] for the [n] loaded documents: at most 15, at
    most [n - 1], equal to 1 when [n = 2] and to 0 when [n = 1].  Nothing
    between the computation and the call tests the value. *)
Theorem n_neighbors_passed_to_reducer
  (u : UMAP_args) (embs : list (Vec T)) (o : option exn)
  (Hcall : In (ECall (CUmapFitTransform u embs) o) (snd (main X fs))) :
  exists content,
    fs (FILE_NAME ++ ".txt")%string = Some content
    /\ let n := len (load_docs content) in
       (n_neighbors u = Z.min 15 (n - 1)
        /\ n_neighbors u <= 15
        /\ n_neighbors u <= n - 1
        /\ (n = 2 -> n_neighbors u = 1)
        /\ (n = 1 -> n_neighbors u = 0))%Z.
Proof.
  destruct (main X fs) as [r t] eqn:H. cbn [snd] in Hcall.
  run_script_in H; injection H as <- <-; cbn [In] in Hcall;
    repeat (destruct Hcall as [Hcall | Hcall]; try discriminate Hcall);
    try contradiction;
    injection Hcall as <- <- <-;
    (eexists; split; [reflexivity|]);
    cbv zeta; unfold load_docs; cbn [n_neighbors umap_args_for];
    unfold n_neighbors_for; lia.
Qed.

(** What the script hands to the two renderers that take coordinates: the
    documents of line 36 and the points returned on line 58 by
    [fit_transform] of the UMAP object, together with the model that line 85
    fitted on the full embeddings with that same UMAP object among its
    arguments. *)
Lemma renderers_receive_line_58_points
  (m : Model T) (ds : list string) (ps : list (Point T)) (o : option exn)
  (Hcall : In (ECall (CVisualizeDocuments m ds ps) o) (snd (main X fs))
           \/ In (ECall (CVisualizeDocumentDatamap m ds ps) o) (snd (main X fs))) :
  exists st t0 fitted pr,
    fit_stage X fs = (Ok st, t0)
    /\ m = topic_model st /\ ds = docs st /\ ps = reduced_embeddings st
    /\ umap_fit_transform X (umap_args_for ds) (embeddings st) = Ok (fitted, ps)
    /\ bertopic_fit_transform X
         (mkBERTopic T (mkUmapObject (umap_args_for ds) (Some fitted))
            (hdbscan_args_for ds) vectorizer_args true false)
         ds (embeddings st)
       = Ok (m, (topics st, pr)).
Proof.
  destruct (main X fs) as [r t] eqn:H. cbn [snd] in Hcall.
  run_script_in H; injection H as <- <-; cbn [In] in Hcall;
    destruct Hcall as [Hcall | Hcall];
    repeat (destruct Hcall as [Hcall | Hcall]; try discriminate Hcall);
    try contradiction;
    injection Hcall as <- <- <-;
    (eexists _, _, _, _; split; [replay; reflexivity|]);
    cbn [docs embeddings reduced_embeddings topic_model topics];
    repeat split; eassumption.
Qed.

End RunFacts.

(** C1 on the two-title file, with libraries that keep one row per row. *)
Lemma sequences_aligned_witness :
  exists st t,
    fit_stage (toy no_faults) (only_titles two_titles) = (Ok st, t)
    /\ List.length (embeddings st) = List.length (docs st)
    /\ List.length (reduced_embeddings st) = List.length (docs st)
    /\ List.length (topics st) = List.length (docs st)
    /\ List.length (rows st) = 2%nat.
Proof.
  eexists _, _. split; [reflexivity|].
  destruct (sequences_aligned (toy no_faults) (only_titles two_titles))
    with (st := two_titles_state)
         (t := snd (fit_stage (toy no_faults) (only_titles two_titles)))
    as (H1 & H2 & H3 & H4 & _).
  - intros m ds es H. injection H as <-. apply length_map.
  - intros u es f ps H. injection H as _ <-. apply length_map.
  - intros b ds es m ts pr H. injection H as _ <- _. apply length_map.
  - reflexivity.
  - repeat split; assumption.
Defined.

(** C6 on a file of one title: the reducer is called with 0 neighbors. *)
Lemma n_neighbors_passed_to_reducer_witness :
  exists content,
    only_titles one_title (FILE_NAME ++ ".txt")%string = Some content
    /\ let n := len (load_docs content) in
       (n_neighbors (umap_args_for ["topic models"%string])
        = Z.min 15 (n - 1)
        /\ n_neighbors (umap_args_for ["topic models"%string]) <= 15
        /\ n_neighbors (umap_args_for ["topic models"%string]) <= n - 1
        /\ (n = 2 -> n_neighbors (umap_args_for ["topic models"%string]) = 1)
        /\ (n = 1 -> n_neighbors (umap_args_for ["topic models"%string]) = 0))%Z.
Proof.
  apply (n_neighbors_passed_to_reducer (toy no_faults) (only_titles one_title)
           (umap_args_for ["topic models"%string]) [12%nat] None).
  vm_compute. repeat first [left; reflexivity | right].
Defined.

(** ** The [try] block *)

Section TraceFacts.

Context {T : Objects}.

Lemma forallb_after {A : Type} (p : A -> bool) (pre : list A) (x : A)
  (post : list A) :
  forallb p (pre ++ x :: post) = true -> forallb p post = true.
Proof.
  rewrite forallb_app. simpl. intros H.
  apply andb_true_iff in H as [_ H]. now apply andb_true_iff in H as [_ H].
Qed.

Lemma quiet_after_raise_split (t pre post : list (event T)) (c : call T)
  (e : exn) :
  quiet_after_raise t = true ->
  t = pre ++ ECall c (Some e) :: post ->
  forallb (fun ev => negb (is_render_or_write ev)) post = true.
Proof.
  intros Hq ->. induction pre as [|ev pre IH]; simpl in Hq; [exact Hq|].
  destruct ev as [line | c' [e'|]]; auto.
  now apply forallb_after in Hq.
Qed.

Lemma completed_writes_app (a b : list (event T)) :
  completed_writes (a ++ b) = completed_writes a ++ completed_writes b.
Proof.
  induction a as [|ev a IH]; [reflexivity|].
  destruct ev as [line | c [e|]]; [exact IH | destruct c; exact IH |].
  destruct c; simpl; rewrite ?IH; reflexivity.
Qed.

Lemma completed_writes_quiet (post : list (event T)) :
  forallb (fun ev => negb (is_render_or_write ev)) post = true ->
  completed_writes post = [].
Proof.
  induction post as [|ev post IH]; [reflexivity|].
  simpl. intros H. apply andb_true_iff in H as [Hev Hpost].
  destruct ev as [line | c [e|]]; [now apply IH | destruct c; now apply IH |].
  destruct c; simpl in Hev; try discriminate; now apply IH.
Qed.

Variable X : externals T.
Variable fs : string -> option string.

(** Whatever the libraries do, a run of [main] is quiet after a raise. *)
Lemma main_quiet_after_raise : quiet_after_raise (snd (main X fs)) = true.
Proof.
  destruct (main X fs) as [r t] eqn:H.
  run_script_in H; injection H as <- <-; reflexivity.
Qed.

(** The [try] body raises only through one of its seven calls, and the
    raising call is the last event of the body. *)
Lemma render_and_save_raise (st : fit_state T) (e : exn) (tb : list (event T)) :
  render_and_save X st = (Raise e, tb) ->
  exists pre c,
    tb = pre ++ [ECall c (Some e)]
    /\ is_render_or_write (ECall c (Some e)) = true
    /\ no_exception pre = true.
Proof.
  intros H. run_script_in H; try discriminate; injection H as <- <-;
    match goal with
    | |- exists pre c, ?l = _ /\ _ =>
        exists (removelast l);
        match eval cbv [last] in (last l (EPrint [])) with
        | ECall ?c _ => exists c
        end
    end; repeat split.
Qed.

(** C8.  In every run, once a call has raised, no render call and no save
    call follows: what comes after the raising event contains none of the
    four model calls and none of the three saves of the [try] body, so the
    files the run wrote are those saved before the exception. *)
Theorem no_render_or_write_after_exception
  (pre post : list (event T)) (c : call T) (e : exn)
  (Hsplit : snd (main X fs) = pre ++ ECall c (Some e) :: post) :
  Forall (fun ev => is_render_or_write ev = false) post
  /\ completed_writes post = []
  /\ files_written (snd (main X fs)) = files_written pre.
Proof.
  pose proof (quiet_after_raise_split _ _ _ _ _ main_quiet_after_raise Hsplit)
    as Hq.
  pose proof (completed_writes_quiet _ Hq) as Hw.
  split; [|split; [exact Hw|]].
  - apply Forall_forall. intros ev Hin.
    rewrite forallb_forall in Hq. specialize (Hq ev Hin).
    now apply negb_true_iff in Hq.
  - unfold files_written. rewrite Hsplit, completed_writes_app.
    assert (Hc : completed_writes (ECall c (Some e) :: post)
                 = completed_writes post) by (destruct c; reflexivity).
    now rewrite Hc, Hw, app_nil_r.
Qed.

End TraceFacts.

(** C8 on a run whose second save fails: one file written, then nothing. *)
Lemma no_render_or_write_after_exception_witness :
  let X := toy (mkFaults None
                  (fun path => if String.eqb path "titles_hierarchical.html"
                               then Some boom else None)
                  None) in
  let t := snd (main X (only_titles two_titles)) in
  exists pre post,
    t = pre ++ ECall (CWriteHtml ("dendrogram"%string : Figure toy_objects)
                        "titles_hierarchical.html") (Some boom) :: post
    /\ Forall (fun ev => is_render_or_write ev = false) post
    /\ completed_writes post = []
    /\ files_written t = files_written pre
    /\ files_written t = ["titles_document.html"%string].
Proof.
  intros X t.
  exists (firstn 29 t), (skipn 30 t).
  assert (Hsplit : t = firstn 29 t
                       ++ ECall (CWriteHtml ("dendrogram"%string : Figure toy_objects)
                                   "titles_hierarchical.html") (Some boom)
                       :: skipn 30 t) by reflexivity.
  destruct (no_render_or_write_after_exception X (only_titles two_titles)
              (firstn 29 t) (skipn 30 t) _ _ Hsplit) as (H1 & H2 & H3).
  repeat split; try assumption.
Defined.

Section OutcomeFacts.

Context {T : Objects}.
Variable X : externals T.
Variable fs : string -> option string.

(** C9.  In a run where [main] returns and no call raised, the saves are,
    in order: the scatter figure to titles_document.html and the dendrogram
    to titles_hierarchical.html, both with [write_html], and the datamap
    figure to titles_datamap.png with [savefig] at 150 DPI and a tight
    bounding box.  These three names, each [FILE_NAME] plus a fixed suffix,
    are all the files written. *)
Theorem three_output_files (t : list (event T))
  (Hrun : main X fs = (Ok tt, t))
  (Hclean : no_exception t = true) :
  exists st t0 figure_doc hierarchical fig_hierarchical_clustering figure_datamap,
    fit_stage X fs = (Ok st, t0)
    /\ visualize_documents X (topic_model st) (docs st) (reduced_embeddings st)
       = Ok figure_doc
    /\ hierarchical_topics X (topic_model st) (docs st) = Ok hierarchical
    /\ visualize_hierarchy X (topic_model st) hierarchical
       = Ok fig_hierarchical_clustering
    /\ visualize_document_datamap X (topic_model st) (docs st)
         (reduced_embeddings st) = Ok figure_datamap
    /\ completed_writes t
       = [CWriteHtml figure_doc "titles_document.html";
          CWriteHtml fig_hierarchical_clustering "titles_hierarchical.html";
          CSavefig figure_datamap "titles_datamap.png" 150 "tight"]
    /\ files_written t
       = [(FILE_NAME ++ "_document.html")%string;
          (FILE_NAME ++ "_hierarchical.html")%string;
          (FILE_NAME ++ "_datamap.png")%string]
    /\ files_written t
       = ["titles_document.html"; "titles_hierarchical.html";
          "titles_datamap.png"]%string.
Proof.
  run_script_in Hrun; try discriminate Hrun;
    injection Hrun as <-; try discriminate Hclean.
  eexists _, _, _, _, _, _.
  split; [replay; reflexivity|].
  cbn [docs embeddings reduced_embeddings topic_model topics].
  repeat split; eassumption.
Qed.

(** C4, amended.  Let the [try] body raise [e].  If [e] is an [Exception]
    the handler runs: it prints the message of [e], the traceback and the
    fixed line, then asks the model for its topic table.  If that call
    returns, the table is printed, the closing line follows and [main]
    returns, so the process exits with status 0.  If that call raises, its
    exception leaves [main]: no table, no closing line.  If [e] is not an
    [Exception], it leaves [main] at once and the handler does not run. *)
Theorem handler_reports_then_exits
  (st : fit_state T) (t0 tb : list (event T)) (e : exn)
  (Hfit : fit_stage X fs = (Ok st, t0))
  (Hbody : render_and_save X st = (Raise e, tb)) :
  match exn_cls e with
  | NotException =>
      main X fs = (Raise e, t0 ++ snd (report_topics st) ++ tb)
  | IsException =>
      let reported :=
        t0 ++ snd (report_topics st) ++ tb
           ++ [EPrint [Lit (NL ++ WARNING_SIGN ++ " Error during visualization: ");
                       ExnStr e];
               EPrint [Lit ("Traceback:" ++ NL); FormatExc e];
               EPrint [Lit "The model was trained successfully, but visualization failed."]]
      in
      match get_topic_info X (topic_model st) with
      | Ok info =>
          main X fs
          = (Ok tt,
             reported
               ++ [ECall (CGetTopicInfo (topic_model st)) None;
                   EPrint [Lit (NL ++ "Topics found:" ++ NL); Table info];
                   EPrint [Lit "Open the file in your browser to view the interactive visualizations."]])
          /\ exits_normally (main X fs) = true
      | Raise e' =>
          main X fs
          = (Raise e',
             reported ++ [ECall (CGetTopicInfo (topic_model st)) (Some e')])
          /\ exits_normally (main X fs) = false
      end
  end.
Proof.
  assert (Hmain :
    main X fs
    = (fst (bind (try_except_Exception (Raise e, tb) (on_exception X st))
              (fun _ => closing_line)),
       t0 ++ snd (report_topics st)
          ++ snd (bind (try_except_Exception (Raise e, tb) (on_exception X st))
                    (fun _ => closing_line)))).
  { unfold main, bind at 1. rewrite Hfit.
    unfold visualization_stage. rewrite Hbody.
    unfold report_topics, print, bind at 1 2 3. cbn [app snd].
    destruct (bind (try_except_Exception (Raise e, tb) (on_exception X st))
                (fun _ => closing_line)) as [r t].
    cbn [fst snd]. unfold bind. cbn [app]. reflexivity. }
  unfold try_except_Exception in Hmain.
  destruct (exn_cls e).
  - cbv zeta. unfold on_exception, closing_line, bind, invoke, print in Hmain.
    destruct (get_topic_info X (topic_model st)) as [info | e'];
      cbn [raised_by app fst snd] in Hmain;
      (split; [|unfold exits_normally; now rewrite Hmain]);
      rewrite Hmain; rewrite <- !app_assoc; reflexivity.
  - unfold bind in Hmain. cbn [fst snd] in Hmain. exact Hmain.
Qed.

End OutcomeFacts.

(** C9 on the two-title file with libraries that never raise. *)
Lemma three_output_files_witness :
  let t := snd (main (toy no_faults) (only_titles two_titles)) in
  main (toy no_faults) (only_titles two_titles) = (Ok tt, t)
  /\ no_exception t = true
  /\ files_written t
     = ["titles_document.html"; "titles_hierarchical.html";
        "titles_datamap.png"]%string.
Proof.
  intros t.
  destruct (three_output_files (toy no_faults) (only_titles two_titles) t
              eq_refl eq_refl) as (st & t0 & fd & h & fh & fm & H).
  split; [reflexivity | split; [reflexivity | apply H]].
Defined.

(** C4, the claim as stated fails.  The scatter renderer raises an
    [Exception]; the handler starts, but its own call for the topic table
    raises too: nothing catches it, [main] does not return and the table is
    never printed.  And a [KeyboardInterrupt] raised by the renderer is not
    an [Exception]: the handler does not run at all. *)
Lemma handler_exit_not_guaranteed :
  let fs := only_titles two_titles in
  let X := toy (mkFaults (Some boom) (fun _ => None) (Some table_lost)) in
  let X' := toy (mkFaults (Some interrupted) (fun _ => None) None) in
  (exists t0 tb,
      fit_stage X fs = (Ok two_titles_state, t0)
      /\ render_and_save X two_titles_state = (Raise boom, tb)
      /\ exn_cls boom = IsException)
  /\ fst (main X fs) = Raise table_lost
  /\ exits_normally (main X fs) = false
  /\ table_printed (snd (main X fs)) = false
  /\ fst (main X' fs) = Raise interrupted
  /\ exits_normally (main X' fs) = false
  /\ table_printed (snd (main X' fs)) = false.
Proof.
  intros fs X X'. split.
  - eexists _, _. repeat split; reflexivity.
  - repeat split; reflexivity.
Qed.

(** The amended C4 on a run whose scatter renderer raises while the topic
    table stays available. *)
Lemma handler_reports_then_exits_witness :
  let fs := only_titles two_titles in
  let X := toy (mkFaults (Some boom) (fun _ => None) None) in
  render_and_save X two_titles_state
  = (Raise boom, snd (render_and_save X two_titles_state))
  /\ exits_normally (main X fs) = true
  /\ table_printed (snd (main X fs)) = true.
Proof.
  intros fs X.
  destruct (handler_reports_then_exits X fs two_titles_state
              (snd (fit_stage X fs)) (snd (render_and_save X two_titles_state))
              boom eq_refl eq_refl)
    as [Hmain Hexit].
  split; [reflexivity | split; [exact Hexit | reflexivity]].
Defined.

(* ================================================================== *)
(** * More about the loader *)
(* ================================================================== *)

Section LoaderComposition.

Local Open Scope string_scope.

(** The comprehension of line 36 on the lines of a text: the non-empty
    segments between newlines. *)
Lemma docs_of_readlines (text : string) :
  docs_of_lines (readlines text) = nonblank_lines text.
Proof.
  unfold nonblank_lines.
  destruct (split_newline_readlines text) as (tail & Ht & Hs & _).
  rewrite Hs, filter_app, (filter_nonempty_stripped _ (readlines_shape text)).
  destruct Ht as [-> | ->]; simpl; now rewrite app_nil_r.
Qed.

(** Text-mode reading of a text cut after a newline: the two parts are
    read independently. *)
Lemma universal_newlines_line_boundary (b : string) (a : string) :
  (universal_newlines (a ++ String LF b)
   = universal_newlines (a ++ NL) ++ universal_newlines b)%string
  /\ forall c,
      (universal_newlines (String c a ++ String LF b)
       = universal_newlines (String c a ++ NL) ++ universal_newlines b)%string.
Proof.
  induction a as [|c' rest [IH1 IH2]].
  - split; [reflexivity|]. intros c. simpl.
    destruct (Ascii.eqb c CR); reflexivity.
  - split; [apply IH2|]. intros c.
    change (universal_newlines (String c (String c' rest) ++ String LF b))
      with (if Ascii.eqb c CR
            then if Ascii.eqb c' LF
                 then String LF (universal_newlines (rest ++ String LF b))
                 else String LF (universal_newlines (String c' rest ++ String LF b))
            else String c (universal_newlines (String c' rest ++ String LF b))).
    change (universal_newlines (String c (String c' rest) ++ NL))
      with (if Ascii.eqb c CR
            then if Ascii.eqb c' LF
                 then String LF (universal_newlines (rest ++ NL))
                 else String LF (universal_newlines (String c' rest ++ NL))
            else String c (universal_newlines (String c' rest ++ NL))).
    destruct (Ascii.eqb c CR); [destruct (Ascii.eqb c' LF)|];
      rewrite ?IH1, ?IH2; reflexivity.
Qed.

(** A text that ends with a newline still does after text-mode reading. *)
Lemma universal_newlines_keeps_last_newline (a : string) :
  (exists s, universal_newlines (a ++ NL) = (s ++ NL)%string)
  /\ forall c, exists s, universal_newlines (String c a ++ NL) = (s ++ NL)%string.
Proof.
  induction a as [|c' rest [IH1 IH2]].
  - split; [now exists ""|]. intros c. simpl.
    destruct (Ascii.eqb c CR); [now exists "" | now exists (String c "")].
  - split; [apply IH2|]. intros c.
    change (universal_newlines (String c (String c' rest) ++ NL))
      with (if Ascii.eqb c CR
            then if Ascii.eqb c' LF
                 then String LF (universal_newlines (rest ++ NL))
                 else String LF (universal_newlines (String c' rest ++ NL))
            else String c (universal_newlines (String c' rest ++ NL))).
    destruct IH1 as [s1 E1]. destruct (IH2 c') as [s2 E2].
    destruct (Ascii.eqb c CR); [destruct (Ascii.eqb c' LF)|];
      rewrite ?E1, ?E2;
      [now exists (String LF s1) | now exists (String LF s2)
       | now exists (String c s2)].
Qed.

Lemma readlines_newline_nonempty (s : string) : readlines (s ++ NL) <> [].
Proof.
  destruct s as [|c rest]; simpl; [discriminate|].
  destruct (Ascii.eqb c LF); [discriminate|].
  destruct (readlines (rest ++ NL)); discriminate.
Qed.

(** Lines are cut independently on each side of a newline. *)
Lemma readlines_line_boundary (s t : string) :
  readlines (s ++ String LF t) = (readlines (s ++ NL) ++ readlines t)%list.
Proof.
  induction s as [|c rest IH]; [reflexivity|].
  simpl. destruct (Ascii.eqb c LF); [now rewrite IH|].
  rewrite IH. pose proof (readlines_newline_nonempty rest) as Hne.
  destruct (readlines (rest ++ NL)) as [|l ls]; [congruence | reflexivity].
Qed.

Lemma load_docs_line_boundary (a b : string) :
  load_docs (a ++ String LF b) = (load_docs (a ++ NL) ++ load_docs b)%list.
Proof.
  unfold load_docs.
  rewrite (proj1 (universal_newlines_line_boundary b a)).
  destruct (proj1 (universal_newlines_keeps_last_newline a)) as [s E].
  rewrite E.
  replace ((s ++ NL) ++ universal_newlines b)%string
    with (s ++ String LF (universal_newlines b))%string
    by (now rewrite append_assoc).
  now rewrite readlines_line_boundary, docs_of_lines_app.
Qed.

(** A newline added at the end of a text is read as such, unless it
    completes a CR LF pair and then adds nothing. *)
Lemma universal_newlines_final_newline (a : string) :
  (universal_newlines (a ++ NL) = (universal_newlines a ++ NL)%string
   \/ universal_newlines (a ++ NL) = universal_newlines a)
  /\ forall c,
      universal_newlines (String c a ++ NL)
      = (universal_newlines (String c a) ++ NL)%string
      \/ universal_newlines (String c a ++ NL) = universal_newlines (String c a).
Proof.
  induction a as [|c' rest [IH1 IH2]].
  - split; [now left|]. intros c. simpl.
    destruct (Ascii.eqb c CR); [now right | now left].
  - split; [apply IH2|]. intros c.
    change (universal_newlines (String c (String c' rest) ++ NL))
      with (if Ascii.eqb c CR
            then if Ascii.eqb c' LF
                 then String LF (universal_newlines (rest ++ NL))
                 else String LF (universal_newlines (String c' rest ++ NL))
            else String c (universal_newlines (String c' rest ++ NL))).
    change (universal_newlines (String c (String c' rest)))
      with (if Ascii.eqb c CR
            then if Ascii.eqb c' LF
                 then String LF (universal_newlines rest)
                 else String LF (universal_newlines (String c' rest))
            else String c (universal_newlines (String c' rest))).
    destruct (Ascii.eqb c CR); [destruct (Ascii.eqb c' LF)|];
      [destruct IH1 as [-> | ->] | destruct (IH2 c') as [-> | ->]
       | destruct (IH2 c') as [-> | ->]]; auto.
Qed.

Lemma split_newline_final_newline (t : string) :
  forall acc,
    split_newline acc (t ++ NL) = (split_newline acc t ++ [""%string])%list.
Proof.
  induction t as [|c rest IH]; intros acc; [reflexivity|].
  simpl. destruct (Ascii.eqb c LF); now rewrite IH.
Qed.

Lemma load_docs_final_newline (content : string) :
  load_docs (content ++ NL) = load_docs content.
Proof.
  unfold load_docs. rewrite !docs_of_readlines.
  destruct (proj1 (universal_newlines_final_newline content)) as [-> | ->];
    [|reflexivity].
  unfold nonblank_lines.
  rewrite split_newline_final_newline, filter_app. simpl.
  now rewrite app_nil_r.
Qed.

Lemma load_docs_one_line (d : string) :
  nonempty d = true -> no_line_end d = true -> load_docs (d ++ NL) = [d].
Proof.
  intros Hne Hend. unfold no_line_end in Hend.
  apply andb_true_iff in Hend as [Hlf Hcr].
  unfold load_docs.
  assert (Hcr' : lacks CR (d ++ NL) = true).
  { clear -Hcr. induction d as [|c d IH]; [reflexivity|].
    simpl in *. apply andb_true_iff in Hcr as [Hc Hd]. now rewrite Hc, IH. }
  rewrite (universal_newlines_id _ Hcr'), (readlines_one_line _ Hlf).
  unfold docs_of_lines, not_blank. cbn [filter].
  rewrite body_newline_blank, Hne. cbn [negb map].
  now rewrite (proj1 (rstrip_newline_body _ Hlf)).
Qed.

End LoaderComposition.

(** X1.  Cutting a file after a newline cuts its documents: the documents
    of [a ++ "\n" ++ b] are those of [a ++ "\n"] followed by those of [b]. *)
Theorem load_docs_concatenates (a b : string) :
  load_docs (a ++ NL ++ b) = load_docs (a ++ NL) ++ load_docs b.
Proof. exact (load_docs_line_boundary a b). Qed.

(** X2.  A newline added at the end of the file changes nothing: the last
    line may or may not be terminated, and trailing empty lines are
    ignored. *)
Theorem load_docs_ignores_final_newline (content : string) :
  load_docs (content ++ NL) = load_docs content
  /\ load_docs (content ++ NL ++ NL) = load_docs content.
Proof.
  split; [apply load_docs_final_newline|].
  replace (content ++ NL ++ NL)%string with ((content ++ NL) ++ NL)%string
    by apply append_assoc.
  now rewrite !load_docs_final_newline.
Qed.

(** X3.  Every loaded document is a non-empty string. *)
Theorem loaded_docs_nonempty (content : string) :
  Forall (fun d => d <> ""%string) (load_docs content).
Proof.
  unfold load_docs. rewrite docs_of_readlines. unfold nonblank_lines.
  apply Forall_forall. intros d Hd. apply filter_In in Hd as [_ Hd].
  now destruct d.
Qed.

(** X4.  Writing documents one per line and loading the file gives the
    documents back, provided each is non-empty and free of line endings. *)
Theorem load_docs_join_lines (ds : list string)
  (Hvalid : Forall (fun d => nonempty d = true /\ no_line_end d = true) ds) :
  load_docs (join_lines ds) = ds.
Proof.
  induction Hvalid as [|d ds [Hne Hend] _ IH]; [reflexivity|].
  simpl join_lines.
  change (d ++ NL ++ join_lines ds)%string
    with (d ++ String LF (join_lines ds))%string.
  rewrite load_docs_line_boundary, IH, (load_docs_one_line d Hne Hend).
  reflexivity.
Qed.

Lemma load_docs_join_lines_witness :
  load_docs (join_lines ["graph neural networks"; "  "; "topic models"]%string)
  = ["graph neural networks"; "  "; "topic models"]%string.
Proof.
  apply load_docs_join_lines.
  repeat constructor.
Defined.

Section EmptyCorpus.

Local Open Scope string_scope.

Lemma universal_newlines_only_line_ends (a : string) :
  (made_of (fun c => Ascii.eqb c LF) (universal_newlines a) = only_line_ends a)
  /\ forall c,
      made_of (fun c => Ascii.eqb c LF) (universal_newlines (String c a))
      = only_line_ends (String c a).
Proof.
  unfold only_line_ends.
  induction a as [|c' rest [IH1 IH2]].
  - split; [reflexivity|]. intros c. simpl.
    destruct (Ascii.eqb c CR) eqn:Hc; simpl.
    + now rewrite orb_true_r.
    + now rewrite orb_false_r.
  - split; [apply IH2|]. intros c.
    change (universal_newlines (String c (String c' rest)))
      with (if Ascii.eqb c CR
            then if Ascii.eqb c' LF
                 then String LF (universal_newlines rest)
                 else String LF (universal_newlines (String c' rest))
            else String c (universal_newlines (String c' rest))).
    change (made_of (fun c0 => Ascii.eqb c0 LF || Ascii.eqb c0 CR)
              (String c (String c' rest)))
      with ((Ascii.eqb c LF || Ascii.eqb c CR)
            && made_of (fun c0 => Ascii.eqb c0 LF || Ascii.eqb c0 CR)
                 (String c' rest)).
    destruct (Ascii.eqb c CR) eqn:Hc.
    + rewrite orb_true_r, andb_true_l.
      destruct (Ascii.eqb c' LF) eqn:Hc'.
      * change (made_of (fun c0 => Ascii.eqb c0 LF)
                  (String LF (universal_newlines rest)))
          with (made_of (fun c0 => Ascii.eqb c0 LF) (universal_newlines rest)).
        rewrite IH1. cbn [made_of]. now rewrite Hc'.
      * change (made_of (fun c0 => Ascii.eqb c0 LF)
                  (String LF (universal_newlines (String c' rest))))
          with (made_of (fun c0 => Ascii.eqb c0 LF)
                  (universal_newlines (String c' rest))).
        apply IH2.
    + rewrite orb_false_r.
      change (made_of (fun c0 => Ascii.eqb c0 LF)
                (String c (universal_newlines (String c' rest))))
        with (Ascii.eqb c LF
              && made_of (fun c0 => Ascii.eqb c0 LF)
                   (universal_newlines (String c' rest))).
      now rewrite IH2.
Qed.

Lemma nonblank_lines_nil (t : string) :
  nonblank_lines t = [] <-> made_of (fun c => Ascii.eqb c LF) t = true.
Proof.
  unfold nonblank_lines. induction t as [|c rest IH]; [now split|].
  simpl. destruct (Ascii.eqb c LF) eqn:Hc; [exact IH|].
  destruct (split_newline_acc rest [c]) as (x & xs & _ & ->).
  simpl. split; discriminate.
Qed.

Lemma load_docs_nil (content : string) :
  load_docs content = [] <-> only_line_ends content = true.
Proof.
  unfold load_docs. rewrite docs_of_readlines, nonblank_lines_nil.
  now rewrite (proj1 (universal_newlines_only_line_ends content)).
Qed.

End EmptyCorpus.

(** X5.  A file loads to no document exactly when it holds nothing but
    line endings (the empty file included). *)
Theorem no_docs_iff_only_line_ends (content : string) :
  load_docs content = [] <-> only_line_ends content = true.
Proof. exact (load_docs_nil content). Qed.

(* ================================================================== *)
(** * The topic distribution of lines 87-88 *)
(* ================================================================== *)

Section Distribution.

Local Open Scope nat_scope.

Lemma count_in_below (d : list (Z * nat)) (k : Z) :
  Forall (fun k' => (k < k')%Z) (map fst d) -> count_in d k = 0.
Proof.
  induction d as [|[k' n] d IH]; [reflexivity|].
  simpl. intros H. inversion H as [|? ? Hk Hd]; subst.
  destruct (Z.eqb_spec k k'); [lia | now apply IH].
Qed.

Lemma count_label_keys (k : Z) (d : list (Z * nat)) (x : Z) :
  In x (map fst (count_label k d)) <-> x = k \/ In x (map fst d).
Proof.
  induction d as [|[k' n] d IH]; simpl; [intuition|].
  destruct (Z.ltb_spec k k'); simpl; [intuition|].
  destruct (Z.eqb_spec k k'); simpl; [subst; intuition|].
  rewrite IH. intuition.
Qed.

Lemma count_label_sorted (k : Z) (d : list (Z * nat)) :
  StronglySorted Z.lt (map fst d) ->
  StronglySorted Z.lt (map fst (count_label k d)).
Proof.
  induction d as [|[k' n] d IH]; intros H; simpl.
  - repeat constructor.
  - inversion H as [|? ? Hs Hall]; subst.
    destruct (Z.ltb_spec k k') as [Hlt | Hge].
    + simpl. constructor; [exact H|]. constructor; [exact Hlt|].
      eapply Forall_impl; [|exact Hall]. simpl. intros a Ha. lia.
    + destruct (Z.eqb_spec k k'); simpl.
      * constructor; assumption.
      * constructor; [now apply IH|].
        apply Forall_forall. intros x Hx.
        apply count_label_keys in Hx as [-> | Hx]; [lia|].
        rewrite Forall_forall in Hall. now apply Hall.
Qed.

Lemma count_in_count_label (k : Z) (d : list (Z * nat)) (x : Z) :
  StronglySorted Z.lt (map fst d) ->
  count_in (count_label k d) x
  = count_in d x + (if (x =? k)%Z then 1 else 0).
Proof.
  induction d as [|[k' n] d IH]; intros H; simpl.
  - destruct (Z.eqb_spec x k); reflexivity.
  - inversion H as [|? ? Hs Hall]; subst.
    destruct (Z.ltb_spec k k') as [Hlt | Hge].
    + simpl. destruct (Z.eqb_spec x k) as [Hx|Hx].
      * subst x. destruct (Z.eqb_spec k k'); [lia|].
        rewrite count_in_below; [reflexivity|].
        eapply Forall_impl; [|exact Hall]. simpl. intros a Ha. lia.
      * lia.
    + destruct (Z.eqb_spec k k') as [Hk|Hk]; simpl.
      * subst k'. destruct (Z.eqb_spec x k); lia.
      * destruct (Z.eqb_spec x k') as [Hx|Hx].
        -- subst x. destruct (Z.eqb_spec k' k); lia.
        -- now apply IH.
Qed.

Lemma count_label_positive (k : Z) (d : list (Z * nat)) :
  Forall (fun p => 0 < snd p) d -> Forall (fun p => 0 < snd p) (count_label k d).
Proof.
  induction d as [|[k' n] d IH]; intros H; simpl.
  - repeat constructor.
  - inversion H; subst.
    destruct (k <? k')%Z; [constructor; [simpl; lia | exact H]|].
    destruct (k =? k')%Z; constructor; simpl in *; auto; lia.
Qed.

Lemma count_label_total (k : Z) (d : list (Z * nat)) :
  fold_right (fun p acc => snd p + acc) 0 (count_label k d)
  = S (fold_right (fun p acc => snd p + acc) 0 d).
Proof.
  induction d as [|[k' n] d IH]; simpl; [reflexivity|].
  destruct (k <? k')%Z; [reflexivity|].
  destruct (k =? k')%Z; simpl; [reflexivity | rewrite IH; lia].
Qed.

Lemma unique_counts_sorted (labels : list Z) :
  StronglySorted Z.lt (map fst (unique_counts labels)).
Proof.
  induction labels as [|k l IH]; simpl; [constructor|].
  now apply count_label_sorted.
Qed.

Lemma unique_counts_count (labels : list Z) (x : Z) :
  count_in (unique_counts labels) x = count_occ Z.eq_dec labels x.
Proof.
  induction labels as [|k l IH]; simpl; [reflexivity|].
  rewrite (count_in_count_label _ _ _ (unique_counts_sorted l)), IH.
  destruct (Z.eq_dec k x) as [->|Hk].
  - rewrite Z.eqb_refl. lia.
  - destruct (Z.eqb_spec x k); [congruence | lia].
Qed.

Lemma unique_counts_positive (labels : list Z) :
  Forall (fun p => 0 < snd p) (unique_counts labels).
Proof.
  induction labels as [|k l IH]; simpl; [constructor|].
  now apply count_label_positive.
Qed.

(** In a distribution with increasing labels, an entry is the count of
    its label. *)
Lemma count_in_entry (d : list (Z * nat)) (k : Z) (n : nat) :
  StronglySorted Z.lt (map fst d) -> In (k, n) d -> count_in d k = n.
Proof.
  induction d as [|[k' n'] d IH]; intros H Hin; [contradiction|].
  simpl in H. inversion H as [|? ? Hs Hall]; subst.
  simpl. destruct Hin as [E | Hin].
  - injection E as -> ->. now rewrite Z.eqb_refl.
  - destruct (Z.eqb_spec k k') as [->|Hk]; [|now apply IH].
    rewrite Forall_forall in Hall.
    specialize (Hall k' (in_map fst _ _ Hin)). simpl in Hall. lia.
Qed.

Lemma count_in_positive_entry (d : list (Z * nat)) (k : Z) :
  0 < count_in d k -> In (k, count_in d k) d.
Proof.
  induction d as [|[k' n'] d IH]; simpl; [lia|].
  destruct (Z.eqb_spec k k') as [->|Hk]; [now left | auto].
Qed.

End Distribution.

(** X6.  The distribution printed on line 88 lists the distinct topic
    labels in increasing order, each once and with the number of documents
    that carry it; it has as many entries as line 87 reports topics, and
    its counts add up to the number of documents given a topic. *)
Theorem unique_counts_distribution (labels : list Z) :
  let d := unique_counts labels in
  StronglySorted Z.lt (map fst d)
  /\ (forall k n,
         In (k, n) d <-> n = count_occ Z.eq_dec labels k /\ (0 < n)%nat)
  /\ List.length d = List.length (nodup Z.eq_dec labels)
  /\ fold_right (fun p acc => (snd p + acc)%nat) 0%nat d = List.length labels.
Proof.
  intros d. pose proof (unique_counts_sorted labels) as Hs. fold d in Hs.
  assert (Hentry : forall k n,
             In (k, n) d <-> n = count_occ Z.eq_dec labels k /\ (0 < n)%nat).
  { intros k n. split.
    - intros Hin. split.
      + rewrite <- (unique_counts_count labels k). fold d.
        symmetry. now apply count_in_entry.
      + pose proof (unique_counts_positive labels) as Hp. fold d in Hp.
        rewrite Forall_forall in Hp. exact (Hp _ Hin).
    - intros [-> Hpos]. rewrite <- (unique_counts_count labels k) in *.
      now apply count_in_positive_entry. }
  split; [exact Hs|]. split; [exact Hentry|]. split.
  - assert (Hnd : NoDup (map fst d)).
    { clear -Hs. induction Hs as [|x l _ IH Hall]; constructor; [|exact IH].
      intros Hin. rewrite Forall_forall in Hall. specialize (Hall _ Hin). lia. }
    rewrite <- (length_map fst d). apply Nat.le_antisymm.
    + apply NoDup_incl_length; [exact Hnd|].
      intros k Hk. apply nodup_In.
      apply in_map_iff in Hk as ([k' n] & <- & Hin). pose proof Hin as Hin'.
      apply Hentry in Hin as [_ Hpos]. simpl.
      apply (proj2 (count_occ_In Z.eq_dec labels k')).
      apply Hentry in Hin'. lia.
    + apply NoDup_incl_length; [apply NoDup_nodup|].
      intros k Hk. apply nodup_In in Hk.
      apply (proj1 (count_occ_In Z.eq_dec labels k)) in Hk.
      apply in_map_iff. exists (k, count_occ Z.eq_dec labels k).
      split; [reflexivity|]. apply Hentry. split; [reflexivity | lia].
  - subst d. clear. induction labels as [|k l IH]; [reflexivity|].
    simpl. now rewrite count_label_total, IH.
Qed.
